(** * Drive helper functions (gdrive/drive_helpers.py)

    A shallow embedding of the helpers of [gdrive/drive_helpers.py]:
    [check_public_link_permission], [get_drive_image_url],
    [build_drive_list_params] and [find_or_create_folder], together with
    the Python operations they rely on (dictionaries, truthiness,
    [str.replace], subscripting, [try]/[except Exception]). *)

From Stdlib Require Import ZArith String Ascii List.
From stdpp Require Import base option gmap strings list fin_maps.

Set Warnings "-register-all".
Local Open Scope string_scope.
Local Open Scope Z_scope.
Local Open Scope list_scope.

(** ** Python values and operations *)

Module Py.

(** The values that flow through the helpers: JSON-shaped data as the
    Drive client returns it, and the keyword dictionaries the helpers
    build.  Dictionaries are keyed by strings. *)
Inductive value : Type :=
| VNone
| VBool (b : bool)
| VInt (z : Z)
| VStr (s : string)
| VList (l : list value)
| VDict (d : gmap string value).

(** The exceptions that can be raised.  [ApiError] stands for whatever
    the Drive client's [execute] raises on a failure (HttpError,
    transport errors).  The last three derive from [BaseException]
    without deriving from [Exception]: the cancellation of the task at
    an [await] ([asyncio.CancelledError]), an interrupt and an exit
    request. *)
Inductive exn : Type :=
| AttributeError
| TypeError
| KeyError
| IndexError
| ApiError (msg : string)
| CancelledError
| KeyboardInterrupt
| SystemExit.

(** [isinstance(e, Exception)]. *)
Definition is_exception (e : exn) : bool :=
  match e with
  | AttributeError | TypeError | KeyError | IndexError | ApiError _ => true
  | CancelledError | KeyboardInterrupt | SystemExit => false
  end.

(** An [Optional[str]] argument seen as a value. *)
Definition of_optional (o : option string) : value :=
  match o with
  | Some s => VStr s
  | None => VNone
  end.

(** [bool(v)], the test of [if v:]. *)
Definition truthy (v : value) : bool :=
  match v with
  | VNone => false
  | VBool b => b
  | VInt z => negb (z =? 0)
  | VStr s => negb (String.eqb s "")
  | VList l => match l with [] => false | _ :: _ => true end
  | VDict d => negb (bool_decide (dom d = ∅))
  end.

(** [v == s] for a string literal [s]: only a [str] with the same
    characters is equal to a [str]. *)
Definition eq_str (v : value) (s : string) : bool :=
  match v with
  | VStr t => String.eqb t s
  | _ => false
  end.

(** [v in [s1, ..., sn]] for a list display of string literals. *)
Definition in_strs (v : value) (l : list string) : bool :=
  existsb (eq_str v) l.

(** [v.get(k, default)]: only dictionaries have a [get] method. *)
Definition get (v : value) (k : string) (default : value) : exn + value :=
  match v with
  | VDict d => inr (from_option id default (d !! k))
  | _ => inl AttributeError
  end.

(** A sequence index: a negative index counts from the end; [None]
    when it falls outside the sequence. *)
Definition seq_index (len : nat) (i : Z) : option nat :=
  if 0 <=? i then
    (if i <? Z.of_nat len then Some (Z.to_nat i) else None)
  else
    (if 0 <=? Z.of_nat len + i then Some (Z.to_nat (Z.of_nat len + i)) else None).

(** [v[i]] for an integer [i]. *)
Definition getitem_int (v : value) (i : Z) : exn + value :=
  match v with
  | VList l =>
      match seq_index (length l) i ≫= (l !!.) with
      | Some x => inr x
      | None => inl IndexError
      end
  | VStr s =>
      match seq_index (String.length s) i ≫= (fun n => String.get n s) with
      | Some c => inr (VStr (String c EmptyString))
      | None => inl IndexError
      end
  | VDict _ => inl KeyError
  | VNone | VBool _ | VInt _ => inl TypeError
  end.

(** [v[k]] for a string [k]. *)
Definition getitem_str (v : value) (k : string) : exn + value :=
  match v with
  | VDict d =>
      match d !! k with
      | Some x => inr x
      | None => inl KeyError
      end
  | _ => inl TypeError
  end.

(** [s.replace(old, new)] for a non-empty [old]: the occurrences of
    [old] are replaced from left to right, without overlap.  [skip]
    counts the characters of a replaced occurrence still to be passed
    over. *)
Fixpoint replace_from (skip : nat) (old new s : string) : string :=
  match s with
  | EmptyString => EmptyString
  | String c r =>
      match skip with
      | S k => replace_from k old new r
      | O =>
          if String.prefix old s
          then new +:+ replace_from (Nat.pred (String.length old)) old new r
          else String c (replace_from O old new r)
      end
  end.

(** With an empty [old], Python inserts [new] before every character
    and at the end. *)
Fixpoint interleave (new s : string) : string :=
  match s with
  | EmptyString => new
  | String c r => new +:+ String c (interleave new r)
  end.

Definition replace (s old new : string) : string :=
  match old with
  | EmptyString => interleave new s
  | String _ _ => replace_from O old new s
  end.

End Py.

Import Py.

(** ** Calls to the Drive client *)

(** The two methods of [drive_service.files()] the helper uses. *)
Inductive method : Type :=
| files_list
| files_create.

#[export] Instance method_eq_dec : EqDecision method.
Proof. solve_decision. Defined.

(** A request as built by [drive_service.files().list] or
    [drive_service.files().create] from its keyword arguments. *)
Record request : Type := Request {
  req_method : method;
  req_kwargs : gmap string value;
}.

(** The Drive client: what [request.execute()] returns or raises. *)
Record service : Type := Service {
  execute : request → exn + value;
}.

(** Computations that issue requests and may raise: the requests issued
    so far, in order, and the value or the exception. *)
Definition io (A : Type) : Type := list request * (exn + A).

#[export] Instance io_ret : MRet io := fun A a => ([], inr a).

(** Sequencing: an exception ends the computation, the requests issued
    before it stay issued. *)
#[export] Instance io_bind : MBind io := fun A B k m =>
  match m with
  | (t, inl e) => (t, inl e)
  | (t, inr a) => let '(t', r) := k a in (t ++ t', r)
  end.

(** Sequencing of operations that may raise. *)
#[export] Instance raising_bind : MBind (sum exn) := fun A B k r =>
  match r with
  | inl e => inl e
  | inr a => k a
  end.

(** An operation that raises without issuing a request. *)
Definition lift {A} (r : exn + A) : io A := ([], r).

(** [await asyncio.to_thread(req.execute)]. *)
Definition run (svc : service) (req : request) : io value :=
  ([req], execute svc req).

(** [try: body  except C as e: handler e], where [catches e] is
    [isinstance(e, C)]: an exception outside the class goes on
    propagating. *)
Definition try_except {A} (body : io A) (catches : exn → bool)
    (handler : exn → io A) : io A :=
  match body with
  | (t, inl e) =>
      if catches e then let '(t', r) := handler e in (t ++ t', r)
      else (t, inl e)
  | (t, inr a) => (t, inr a)
  end.

Definition calls {A} (m : io A) : list request := m.1.
Definition outcome {A} (m : io A) : exn + A := m.2.

(** The number of requests of method [f] among [t]. *)
Definition count_calls (f : method) (t : list request) : nat :=
  length (filter (fun r => req_method r = f) t).

(** ** The helpers *)

(** [check_public_link_permission(permissions)]: [any] over the
    permission dictionaries. *)
Definition check_public_link_permission (permissions : list (gmap string value)) : bool :=
  existsb
    (fun p =>
       eq_str (from_option id VNone (p !! "type")) "anyone"
       && in_strs (from_option id VNone (p !! "role")) ["reader"; "writer"; "commenter"])
    permissions.

(** [get_drive_image_url(file_id)]. *)
Definition get_drive_image_url (file_id : string) : string :=
  "https://drive.google.com/uc?export=view&id=" +:+ file_id.

(** [format_public_sharing_error(file_name, file_id)]: the three
    adjacent f-strings, joined. *)
Definition format_public_sharing_error (file_name file_id : string) : string :=
  ("❌ Permission Error: '" +:+ file_name +:+ "' not shared publicly. ")
  +:+ "Set 'Anyone with the link' → 'Viewer' in Google Drive sharing. "
  +:+ ("File: https://drive.google.com/file/d/" +:+ file_id +:+ "/view").

(** [build_drive_list_params(query, page_size, drive_id,
    include_items_from_all_drives, corpora)]. *)
Definition build_drive_list_params
    (query : string) (page_size : Z) (drive_id : option string)
    (include_items_from_all_drives : bool) (corpora : option string)
    : gmap string value :=
  let list_params : gmap string value :=
    <["includeItemsFromAllDrives" := VBool include_items_from_all_drives]>
    (<["supportsAllDrives" := VBool true]>
    (<["fields" := VStr "nextPageToken, files(id, name, mimeType, webViewLink, iconLink, modifiedTime, size)"]>
    (<["pageSize" := VInt page_size]>
    (<["q" := VStr query]> ∅)))) in
  if truthy (of_optional drive_id) then
    let list_params := <["driveId" := of_optional drive_id]> list_params in
    if truthy (of_optional corpora) then
      <["corpora" := of_optional corpora]> list_params
    else
      <["corpora" := VStr "drive"]> list_params
  else if truthy (of_optional corpora) then
    <["corpora" := of_optional corpora]> list_params
  else
    list_params.

(** The local variables of [find_or_create_folder], in the order the
    function computes them. *)
Section find_or_create_folder.

Variable drive_service : service.
Variable folder_name : string.
Variable drive_id : option string.
Variable include_items_from_all_drives : bool.

Definition escaped_name : string := Py.replace folder_name "'" "\'".

Definition query : string :=
  "name = '" +:+ escaped_name
  +:+ "' and mimeType = 'application/vnd.google-apps.folder' and trashed = false".

Definition search_params : gmap string value :=
  let search_params : gmap string value :=
    <["includeItemsFromAllDrives" := VBool include_items_from_all_drives]>
    (<["supportsAllDrives" := VBool true]>
    (<["fields" := VStr "files(id, name, parents)"]>
    (<["pageSize" := VInt 10]>
    (<["q" := VStr query]> ∅)))) in
  if truthy (of_optional drive_id) then
    <["driveId" := of_optional drive_id]>
    (<["corpora" := VStr "drive"]> search_params)
  else
    search_params.

Definition parent_folder : value :=
  if truthy (of_optional drive_id) then of_optional drive_id else VStr "root".

Definition folder_metadata : gmap string value :=
  <["parents" := VList [parent_folder]]>
  (<["mimeType" := VStr "application/vnd.google-apps.folder"]>
  (<["name" := VStr folder_name]> ∅)).

(** The keyword arguments of [files().create]. *)
Definition create_kwargs : gmap string value :=
  <["supportsAllDrives" := VBool true]>
  (<["fields" := VStr "id, name"]>
  (<["body" := VDict folder_metadata]> ∅)).

(** The body of the [try] block. *)
Definition find_or_create_folder_body : io value :=
  results ← run drive_service (Request files_list search_params);
  folders ← lift (Py.get results "files" (VList []));
  if truthy folders then
    first ← lift (Py.getitem_int folders 0);
    folder_id ← lift (Py.getitem_str first "id");
    mret folder_id
  else
    created_folder ← run drive_service (Request files_create create_kwargs);
    new_folder_id ← lift (Py.get created_folder "id" VNone);
    mret new_folder_id.

(** [find_or_create_folder(drive_service, folder_name, drive_id,
    include_items_from_all_drives)].  The calls to [logger] write to
    the log only and are left out. *)
Definition find_or_create_folder : io value :=
  try_except find_or_create_folder_body is_exception (fun e => mret VNone).

End find_or_create_folder.

(** ** Specification-level definitions *)

(** A permission record grants access to anyone with the link: its type
    is ['anyone'] and its role is reader, writer or commenter. *)
Definition public_link (p : gmap string value) : Prop :=
  p !! "type" = Some (VStr "anyone")
  ∧ (p !! "role" = Some (VStr "reader")
     ∨ p !! "role" = Some (VStr "writer")
     ∨ p !! "role" = Some (VStr "commenter")).

(** Quote escaping as the specification words it: a single quote becomes
    a backslash followed by the quote, any other character stays as it
    is. *)
Definition escape_char (c : ascii) : string :=
  if Ascii.eqb c "'" then "\'" else String c EmptyString.

Fixpoint escape_quotes (s : string) : string :=
  match s with
  | EmptyString => EmptyString
  | String c r => escape_char c +:+ escape_quotes r
  end.

(** The value a step that may have raised leaves once [except] has
    turned the exception into [None]. *)
Definition or_none (r : exn + value) : value :=
  match r with
  | inr v => v
  | inl _ => VNone
  end.

(** ** Drive clients used as examples *)

(** A drive without the folder: the listing is empty and the creation
    answers with a fresh id. *)
Definition empty_drive : service :=
  Service (fun req =>
    match req_method req with
    | files_list => inr (VDict {[ "files" := VList [] ]})
    | files_create =>
        inr (VDict (<["name" := VStr "Reports"]> {[ "id" := VStr "1NewFolder" ]}))
    end).

(** A drive with two folders of the wanted name. *)
Definition drive_with_folders : service :=
  Service (fun req =>
    match req_method req with
    | files_list =>
        inr (VDict {[ "files" :=
          VList [ VDict (<["name" := VStr "Reports"]> {[ "id" := VStr "1First" ]});
                  VDict (<["name" := VStr "Reports"]> {[ "id" := VStr "2Second" ]}) ] ]})
    | files_create => inr (VDict {[ "id" := VStr "1NewFolder" ]})
    end).

(** What [except Exception] makes of an exception raised in the [try]
    block: [None] is returned for an instance of [Exception], anything
    else propagates. *)
Definition handled (e : exn) : exn + value :=
  if is_exception e then inr VNone else inl e.

(** A drive whose listing is interrupted by the cancellation of the
    task. *)
Definition cancelled_drive : service :=
  Service (fun req =>
    match req_method req with
    | files_list => inl CancelledError
    | files_create => inr (VDict {[ "id" := VStr "1NewFolder" ]})
    end).

(** A drive whose listing fails. *)
Definition failing_drive : service :=
  Service (fun req =>
    match req_method req with
    | files_list => inl (ApiError "HttpError 403")
    | files_create => inr (VDict {[ "id" := VStr "1NewFolder" ]})
    end).

(** A drive whose listing answers with something that is not a
    dictionary. *)
Definition malformed_drive : service :=
  Service (fun req =>
    match req_method req with
    | files_list => inr (VList [])
    | files_create => inr (VDict {[ "id" := VStr "1NewFolder" ]})
    end).

(** A drive whose listing holds a record without an id. *)
Definition drive_with_bare_record : service :=
  Service (fun req =>
    match req_method req with
    | files_list =>
        inr (VDict {[ "files" := VList [ VDict {[ "name" := VStr "Reports" ]} ] ]})
    | files_create => inr (VDict {[ "id" := VStr "1NewFolder" ]})
    end).

(** A drive that creates the folder but answers without an id. *)
Definition drive_without_created_id : service :=
  Service (fun req =>
    match req_method req with
    | files_list => inr (VDict ∅)
    | files_create => inr (VDict {[ "name" := VStr "Reports" ]})
    end).

(** The number of single quotes of a name. *)
Fixpoint count_quotes (s : string) : nat :=
  match s with
  | EmptyString => O
  | String c r => ((if Ascii.eqb c "'" then 1 else 0) + count_quotes r)%nat
  end.

(** ** Proofs *)

(** Looking a literal key up in a dictionary built by successive
    item assignments. *)
Ltac lookup_key :=
  repeat first
    [ rewrite lookup_insert_eq
    | rewrite lookup_insert_ne by discriminate
    | rewrite lookup_empty ];
  try reflexivity.

(** ** Python operations: basic facts *)

Lemma eq_str_true v s : eq_str v s = true ↔ v = VStr s.
Proof.
  destruct v; simpl; try (split; [discriminate | congruence]).
  rewrite String.eqb_eq. split; congruence.
Qed.

Lemma eq_str_lookup (p : gmap string value) k s :
  eq_str (from_option id VNone (p !! k)) s = true ↔ p !! k = Some (VStr s).
Proof.
  rewrite eq_str_true. destruct (p !! k) as [v|]; simpl.
  - split; congruence.
  - split; discriminate.
Qed.

Lemma getitem_int_head x l : Py.getitem_int (VList (x :: l)) 0 = inr x.
Proof.
  unfold Py.getitem_int, seq_index.
  replace (0 <? Z.of_nat (length (x :: l))) with true; [reflexivity|].
  symmetry. apply Z.ltb_lt. cbn [length]. lia.
Qed.

Lemma replace_quote s : Py.replace s "'" "\'" = escape_quotes s.
Proof.
  unfold Py.replace. induction s as [|c r IH]; [reflexivity|].
  cbn [replace_from escape_quotes String.prefix String.length Nat.pred].
  unfold escape_char. rewrite <- IH.
  destruct (ascii_dec "'" c) as [<-|Hne].
  - by destruct r.
  - destruct (Ascii.eqb_spec c "'") as [->|_]; [congruence | reflexivity].
Qed.

Example replace_leftmost : Py.replace "aXXXbXX" "XX" "-" = "a-Xb-".
Proof. reflexivity. Qed.

Example replace_keeps_backslash : Py.replace "a'c" "'" "'" = "a'c".
Proof. reflexivity. Qed.

(** ** The sharing helpers *)

Lemma public_link_test (p : gmap string value) :
  eq_str (from_option id VNone (p !! "type")) "anyone"
  && in_strs (from_option id VNone (p !! "role")) ["reader"; "writer"; "commenter"]
  = true ↔ public_link p.
Proof.
  unfold public_link, in_strs. cbn [existsb].
  rewrite andb_true_iff, !orb_true_iff, !eq_str_lookup.
  intuition discriminate.
Qed.

(** C7: [check_public_link_permission] is true exactly when some record
    of the list has type ['anyone'] and a role among reader, writer and
    commenter; on the empty list it is false. *)
Theorem check_public_link_permission_spec (permissions : list (gmap string value)) :
  (check_public_link_permission permissions = true
   ↔ ∃ p, p ∈ permissions ∧ public_link p)
  ∧ check_public_link_permission [] = false.
Proof.
  split; [|reflexivity].
  unfold check_public_link_permission. rewrite existsb_exists.
  split; intros (p & Hin & Hp); exists p.
  - split; [by apply list_elem_of_In | by apply public_link_test].
  - split; [by apply list_elem_of_In | by apply public_link_test].
Qed.

(** C8: [get_drive_image_url] prefixes the file id with the fixed
    [uc?export=view&id=] address. *)
Theorem get_drive_image_url_spec (file_id : string) :
  get_drive_image_url file_id
  = "https://drive.google.com/uc?export=view&id=" +:+ file_id
  ∧ get_drive_image_url "XYZ" = "https://drive.google.com/uc?export=view&id=XYZ".
Proof. split; reflexivity. Qed.

(** ** The list parameters of [build_drive_list_params] *)

(** C9: the dictionary of [build_drive_list_params] always has the
    general file-browsing [fields] entry and [supportsAllDrives] set;
    with a truthy drive id and no corpora given, [corpora] is ['drive'];
    without a drive id there is no [driveId] key. *)
Theorem build_drive_list_params_spec
    (query : string) (page_size : Z) (drive_id : option string)
    (include_items_from_all_drives : bool) (corpora : option string) :
  let list_params :=
    build_drive_list_params query page_size drive_id
      include_items_from_all_drives corpora in
  list_params !! "fields"
  = Some (VStr "nextPageToken, files(id, name, mimeType, webViewLink, iconLink, modifiedTime, size)")
  ∧ list_params !! "supportsAllDrives" = Some (VBool true)
  ∧ (truthy (of_optional drive_id) = true → corpora = None →
     list_params !! "corpora" = Some (VStr "drive"))
  ∧ (drive_id = None → list_params !! "driveId" = None).
Proof.
  unfold build_drive_list_params. cbv zeta.
  repeat split.
  - destruct (truthy (of_optional drive_id)), (truthy (of_optional corpora));
      lookup_key.
  - destruct (truthy (of_optional drive_id)), (truthy (of_optional corpora));
      lookup_key.
  - intros -> ->. cbn [of_optional truthy]. lookup_key.
  - intros ->. cbn [of_optional truthy].
    destruct (truthy (of_optional corpora)); lookup_key.
Qed.

(** A shared-drive listing that leaves [corpora] to its default. *)
Lemma build_drive_list_params_shared_drive :
  let list_params := build_drive_list_params "trashed = false" 25 (Some "0AAbcPVA") true None in
  list_params !! "corpora" = Some (VStr "drive")
  ∧ list_params !! "driveId" = Some (VStr "0AAbcPVA")
  ∧ list_params !! "supportsAllDrives" = Some (VBool true).
Proof.
  cbv zeta.
  pose proof (build_drive_list_params_spec "trashed = false" 25 (Some "0AAbcPVA") true None)
    as (_ & Hall & Hcorpora & _).
  split; [apply Hcorpora; reflexivity|].
  split; [vm_compute; reflexivity | exact Hall].
Defined.

(** ** [find_or_create_folder]: the requests it issues and its result *)

Section resolve.

Variable drive_service : service.
Variable folder_name : string.
Variable drive_id : option string.
Variable include_items_from_all_drives : bool.

Local Abbreviation list_request :=
  (Request files_list (search_params folder_name drive_id include_items_from_all_drives)).
Local Abbreviation create_request :=
  (Request files_create (create_kwargs folder_name drive_id)).
Local Abbreviation resolve :=
  (find_or_create_folder drive_service folder_name drive_id include_items_from_all_drives).

(** The operations on values raise instances of [Exception] only. *)
Lemma get_raises v k default e : Py.get v k default = inl e → is_exception e = true.
Proof. destruct v; cbn; by intros [= <-]. Qed.

Lemma getitem_int_raises v i e : Py.getitem_int v i = inl e → is_exception e = true.
Proof.
  destruct v as [| | |s|l|d]; cbn; try by intros [= <-].
  - destruct (seq_index (String.length s) i ≫= _); by intros [= <-].
  - destruct (seq_index (length l) i ≫= _); by intros [= <-].
Qed.

Lemma getitem_str_raises v k e : Py.getitem_str v k = inl e → is_exception e = true.
Proof.
  destruct v as [| | | | |d]; cbn; try by intros [= <-].
  destruct (d !! k); by intros [= <-].
Qed.

(** The function, path by path: the listing raises; the response cannot
    be read; a folder is found; a folder is created, or the creation
    raises. *)
Lemma find_or_create_folder_paths :
  resolve =
  match execute drive_service list_request with
  | inl e => ([list_request], handled e)
  | inr results =>
      match Py.get results "files" (VList []) with
      | inl _ => ([list_request], inr VNone)
      | inr folders =>
          if truthy folders then
            ([list_request],
             inr (or_none (first ← Py.getitem_int folders 0;
                           Py.getitem_str first "id")))
          else
            ([list_request; create_request],
             match execute drive_service create_request with
             | inl e => handled e
             | inr created_folder => inr (or_none (Py.get created_folder "id" VNone))
             end)
      end
  end.
Proof.
  unfold find_or_create_folder, find_or_create_folder_body, try_except, run, lift.
  unfold mbind, io_bind, mret, io_ret, handled.
  destruct (execute drive_service (Request files_list _)) as [e|results];
    [by destruct (is_exception e)|].
  destruct (Py.get results "files" (VList [])) as [e|folders] eqn:Hget;
    [by rewrite (get_raises _ _ _ _ Hget)|].
  destruct (truthy folders).
  - destruct (Py.getitem_int folders 0) as [e|first] eqn:Hfirst;
      [by rewrite (getitem_int_raises _ _ _ Hfirst)|].
    cbn [raising_bind].
    destruct (Py.getitem_str first "id") as [e|folder_id] eqn:Hid;
      [by rewrite (getitem_str_raises _ _ _ Hid) | reflexivity].
  - destruct (execute drive_service (Request files_create _)) as [e|created];
      [by destruct (is_exception e)|].
    destruct (Py.get created "id" VNone) as [e|new_folder_id] eqn:Hid;
      [by rewrite (get_raises _ _ _ _ Hid) | reflexivity].
Qed.

(** Every request issued is the listing or the creation request. *)
Lemma find_or_create_folder_requests i req :
  calls resolve !! i = Some req →
  req = list_request ∨ req = create_request.
Proof.
  rewrite find_or_create_folder_paths.
  destruct (execute drive_service list_request) as [e|results].
  { destruct i as [|[|i]]; cbn; intros [= <-]; by left. }
  destruct (Py.get results "files" (VList [])) as [e|folders].
  { destruct i as [|[|i]]; cbn; intros [= <-]; by left. }
  destruct (truthy folders).
  - destruct i as [|[|i]]; cbn; intros [= <-]; by left.
  - destruct i as [|[|[|i]]]; cbn; intros [= <-]; [by left | by right].
Qed.

(** One listing request is issued, whatever happens next. *)
Lemma find_or_create_folder_lists_once :
  count_calls files_list (calls resolve) = 1%nat.
Proof.
  rewrite find_or_create_folder_paths.
  destruct (execute drive_service list_request) as [e|results]; [reflexivity|].
  destruct (Py.get results "files" (VList [])) as [e|folders]; [reflexivity|].
  by destruct (truthy folders).
Qed.

End resolve.

(** ** The creation path *)

(** C1: when the listing comes back empty, one list request and one
    create request are issued and the result is the id of the creation
    response. *)
Theorem find_or_create_folder_creates
    (drive_service : service) (folder_name : string) (drive_id : option string)
    (include_items_from_all_drives : bool) (results : value) :
  execute drive_service
    (Request files_list (search_params folder_name drive_id include_items_from_all_drives))
  = inr results →
  Py.get results "files" (VList []) = inr (VList []) →
  let resolve :=
    find_or_create_folder drive_service folder_name drive_id include_items_from_all_drives in
  count_calls files_list (calls resolve) = 1%nat
  ∧ count_calls files_create (calls resolve) = 1%nat
  ∧ ∀ created_folder new_folder_id,
      execute drive_service (Request files_create (create_kwargs folder_name drive_id))
      = inr (VDict created_folder) →
      created_folder !! "id" = Some new_folder_id →
      outcome resolve = inr new_folder_id.
Proof.
  intros Hlist Hfolders resolve. subst resolve.
  rewrite find_or_create_folder_paths, Hlist, Hfolders. cbn [truthy].
  split; [reflexivity|]. split; [reflexivity|].
  intros created_folder new_folder_id -> Hid.
  unfold outcome. cbn. by rewrite Hid.
Qed.

Lemma find_or_create_folder_creates_reports :
  let resolve := find_or_create_folder empty_drive "Reports" None true in
  count_calls files_list (calls resolve) = 1%nat
  ∧ count_calls files_create (calls resolve) = 1%nat
  ∧ outcome resolve = inr (VStr "1NewFolder").
Proof.
  cbv zeta.
  destruct (find_or_create_folder_creates empty_drive "Reports" None true
              (VDict {[ "files" := VList [] ]}))
    as (Hl & Hc & Hid); [reflexivity | reflexivity |].
  split; [exact Hl|]. split; [exact Hc|].
  apply (Hid (<["name" := VStr "Reports"]> {[ "id" := VStr "1NewFolder" ]}));
    reflexivity.
Defined.

(** ** The lookup path *)

(** C2: when the listing is not empty, one list request and no create
    request are issued and the result is the id of the first record. *)
Theorem find_or_create_folder_finds
    (drive_service : service) (folder_name : string) (drive_id : option string)
    (include_items_from_all_drives : bool) (results first : value)
    (others : list value) :
  execute drive_service
    (Request files_list (search_params folder_name drive_id include_items_from_all_drives))
  = inr results →
  Py.get results "files" (VList []) = inr (VList (first :: others)) →
  let resolve :=
    find_or_create_folder drive_service folder_name drive_id include_items_from_all_drives in
  count_calls files_list (calls resolve) = 1%nat
  ∧ count_calls files_create (calls resolve) = 0%nat
  ∧ ∀ record folder_id,
      first = VDict record →
      record !! "id" = Some folder_id →
      outcome resolve = inr folder_id.
Proof.
  intros Hlist Hfolders resolve. subst resolve.
  rewrite find_or_create_folder_paths, Hlist, Hfolders. cbn [truthy].
  split; [reflexivity|]. split; [reflexivity|].
  intros record folder_id -> Hid.
  unfold outcome. rewrite getitem_int_head. cbn. by rewrite Hid.
Qed.

Lemma find_or_create_folder_finds_first :
  let resolve := find_or_create_folder drive_with_folders "Reports" None true in
  count_calls files_list (calls resolve) = 1%nat
  ∧ count_calls files_create (calls resolve) = 0%nat
  ∧ outcome resolve = inr (VStr "1First").
Proof.
  cbv zeta.
  destruct (find_or_create_folder_finds drive_with_folders "Reports" None true
              (VDict {[ "files" :=
                VList [ VDict (<["name" := VStr "Reports"]> {[ "id" := VStr "1First" ]});
                        VDict (<["name" := VStr "Reports"]> {[ "id" := VStr "2Second" ]}) ] ]})
              (VDict (<["name" := VStr "Reports"]> {[ "id" := VStr "1First" ]}))
              [VDict (<["name" := VStr "Reports"]> {[ "id" := VStr "2Second" ]})])
    as (Hl & Hc & Hid); [reflexivity | reflexivity |].
  split; [exact Hl|]. split; [exact Hc|].
  apply (Hid (<["name" := VStr "Reports"]> {[ "id" := VStr "1First" ]}));
    reflexivity.
Defined.

(** ** Failures *)

(** C3, as the code has it: an exception of the list request or of the
    create request that is an instance of [Exception] is caught and the
    result is [None]; an exception outside [Exception] (a cancellation,
    an interrupt, an exit request) propagates; no instance of
    [Exception] ever leaves the function; after a listing that raised,
    no create request is issued. *)
Theorem find_or_create_folder_catches
    (drive_service : service) (folder_name : string) (drive_id : option string)
    (include_items_from_all_drives : bool) :
  let resolve :=
    find_or_create_folder drive_service folder_name drive_id include_items_from_all_drives in
  (∀ e, outcome resolve = inl e → is_exception e = false)
  ∧ (∀ e,
       execute drive_service
         (Request files_list (search_params folder_name drive_id include_items_from_all_drives))
       = inl e →
       count_calls files_create (calls resolve) = 0%nat
       ∧ (is_exception e = true → outcome resolve = inr VNone)
       ∧ (is_exception e = false → outcome resolve = inl e))
  ∧ (∀ i kwargs e,
       calls resolve !! i = Some (Request files_create kwargs) →
       execute drive_service (Request files_create kwargs) = inl e →
       (is_exception e = true → outcome resolve = inr VNone)
       ∧ (is_exception e = false → outcome resolve = inl e)).
Proof.
  cbv zeta. split; [|split].
  - intros e. rewrite find_or_create_folder_paths. unfold handled.
    destruct (execute drive_service (Request files_list _)) as [e'|results].
    { destruct (is_exception e') eqn:He'; cbn; [done | by intros [= <-]]. }
    destruct (Py.get results "files" (VList [])) as [e'|folders]; [done|].
    destruct (truthy folders); [done|].
    destruct (execute drive_service (Request files_create _)) as [e'|created]; [|done].
    destruct (is_exception e') eqn:He'; cbn; [done | by intros [= <-]].
  - intros e He. rewrite find_or_create_folder_paths, He. unfold handled.
    split; [reflexivity|]. split; intros ->; reflexivity.
  - intros i kwargs e Hi He.
    destruct (find_or_create_folder_requests _ _ _ _ _ _ Hi) as [[=]|[= ->]].
    revert Hi. rewrite find_or_create_folder_paths.
    destruct (execute drive_service (Request files_list _)) as [e'|results].
    { destruct i as [|[|i]]; cbn; intros [=]. }
    destruct (Py.get results "files" (VList [])) as [e'|folders].
    { destruct i as [|[|i]]; cbn; intros [=]. }
    destruct (truthy folders).
    + destruct i as [|[|i]]; cbn; intros [=].
    + intros _. rewrite He. unfold handled.
      split; intros ->; reflexivity.
Qed.

Lemma find_or_create_folder_catches_listing_failure :
  let resolve := find_or_create_folder failing_drive "Reports" None true in
  count_calls files_create (calls resolve) = 0%nat
  ∧ outcome resolve = inr VNone.
Proof.
  cbv zeta.
  destruct (find_or_create_folder_catches failing_drive "Reports" None true)
    as (_ & Hlist & _).
  destruct (Hlist (ApiError "HttpError 403")) as (Hnone & Hcaught & _);
    [reflexivity|].
  split; [exact Hnone | apply Hcaught; reflexivity].
Defined.

(** A listing interrupted by the cancellation of the task: the
    exception is raised by the list request and is not caught; the
    function has no result. *)
Lemma find_or_create_folder_propagates_cancellation :
  let resolve := find_or_create_folder cancelled_drive "Reports" None true in
  execute cancelled_drive (Request files_list (search_params "Reports" None true))
  = inl CancelledError
  ∧ outcome resolve = inl CancelledError
  ∧ outcome resolve ≠ inr VNone.
Proof. cbv zeta. repeat split. discriminate. Qed.

(** ** The parameters of the two requests *)

(** C6: the list request has page size 10, the fields [id, name,
    parents], [supportsAllDrives] set, and [includeItemsFromAllDrives]
    as given by the caller. *)
Theorem find_or_create_folder_list_request
    (drive_service : service) (folder_name : string) (drive_id : option string)
    (include_items_from_all_drives : bool) :
  let resolve :=
    find_or_create_folder drive_service folder_name drive_id include_items_from_all_drives in
  count_calls files_list (calls resolve) = 1%nat
  ∧ ∀ i kwargs,
      calls resolve !! i = Some (Request files_list kwargs) →
      kwargs !! "pageSize" = Some (VInt 10)
      ∧ kwargs !! "fields" = Some (VStr "files(id, name, parents)")
      ∧ kwargs !! "supportsAllDrives" = Some (VBool true)
      ∧ kwargs !! "includeItemsFromAllDrives" = Some (VBool include_items_from_all_drives).
Proof.
  cbv zeta. split; [apply find_or_create_folder_lists_once|].
  intros i kwargs Hi.
  destruct (find_or_create_folder_requests _ _ _ _ _ _ Hi) as [[= ->]|[=]].
  unfold search_params.
  destruct (truthy (of_optional drive_id)); repeat split; lookup_key.
Qed.

(** C5: the query of the list request holds the folder name with every
    single quote preceded by a backslash and every other character as it
    is. *)
Theorem find_or_create_folder_query
    (drive_service : service) (folder_name : string) (drive_id : option string)
    (include_items_from_all_drives : bool) :
  let resolve :=
    find_or_create_folder drive_service folder_name drive_id include_items_from_all_drives in
  (∀ i kwargs,
     calls resolve !! i = Some (Request files_list kwargs) →
     kwargs !! "q"
     = Some (VStr ("name = '" +:+ escape_quotes folder_name
                   +:+ "' and mimeType = 'application/vnd.google-apps.folder' and trashed = false")))
  ∧ calls resolve !! 0%nat
    = Some (Request files_list
              (search_params folder_name drive_id include_items_from_all_drives))
  ∧ escape_char "'" = "\'"
  ∧ ∀ c : ascii, c ≠ "'"%char → escape_char c = String c EmptyString.
Proof.
  cbv zeta. split; [|split; [|split]].
  - intros i kwargs Hi.
    destruct (find_or_create_folder_requests _ _ _ _ _ _ Hi) as [[= ->]|[=]].
    unfold search_params, query, escaped_name. rewrite replace_quote.
    destruct (truthy (of_optional drive_id)); lookup_key.
  - rewrite find_or_create_folder_paths.
    destruct (execute drive_service (Request files_list _)) as [e|results]; [done|].
    destruct (Py.get results "files" (VList [])) as [e|folders]; [done|].
    by destruct (truthy folders).
  - reflexivity.
  - intros c Hc. unfold escape_char.
    by destruct (Ascii.eqb_spec c "'").
Qed.

(** C10: the creation metadata carries the folder name as the caller
    gave it. *)
Theorem find_or_create_folder_metadata_name
    (drive_service : service) (folder_name : string) (drive_id : option string)
    (include_items_from_all_drives : bool) (i : nat) (kwargs : gmap string value) :
  calls (find_or_create_folder drive_service folder_name drive_id
           include_items_from_all_drives) !! i
  = Some (Request files_create kwargs) →
  ∃ folder_metadata,
    kwargs !! "body" = Some (VDict folder_metadata)
    ∧ folder_metadata !! "name" = Some (VStr folder_name).
Proof.
  intros Hi.
  destruct (find_or_create_folder_requests _ _ _ _ _ _ Hi) as [[=]|[= ->]].
  exists (folder_metadata folder_name drive_id). split.
  - unfold create_kwargs. lookup_key.
  - unfold folder_metadata. lookup_key.
Qed.

Lemma find_or_create_folder_metadata_name_quoted :
  ∃ folder_metadata,
    create_kwargs "Bob's files" None !! "body" = Some (VDict folder_metadata)
    ∧ folder_metadata !! "name" = Some (VStr "Bob's files")
    ∧ query "Bob's files"
      = "name = 'Bob\'s files' and mimeType = 'application/vnd.google-apps.folder' and trashed = false".
Proof.
  destruct (find_or_create_folder_metadata_name empty_drive "Bob's files" None true 1%nat
              (create_kwargs "Bob's files" None))
    as (md & Hbody & Hname); [reflexivity|].
  exists md. split; [exact Hbody|]. split; [exact Hname | reflexivity].
Defined.

(** ** Shared-drive scope *)

(** C4: a shared-drive id that is provided, which [if drive_id:] tests
    by truthiness, is carried by the list request ([driveId], with
    [corpora] ['drive']) and is the one parent of the created folder,
    the create request having [supportsAllDrives] set; when none is
    provided the one parent is ['root']. *)
Theorem find_or_create_folder_drive_scope
    (drive_service : service) (folder_name : string) (drive_id : option string)
    (include_items_from_all_drives : bool) (i : nat) (req : request) :
  calls (find_or_create_folder drive_service folder_name drive_id
           include_items_from_all_drives) !! i = Some req →
  (∀ d, drive_id = Some d → truthy (of_optional drive_id) = true →
     (req_method req = files_list →
      req_kwargs req !! "driveId" = Some (VStr d)
      ∧ req_kwargs req !! "corpora" = Some (VStr "drive"))
     ∧ (req_method req = files_create →
        req_kwargs req !! "supportsAllDrives" = Some (VBool true)
        ∧ ∃ folder_metadata,
            req_kwargs req !! "body" = Some (VDict folder_metadata)
            ∧ folder_metadata !! "parents" = Some (VList [VStr d])))
  ∧ (truthy (of_optional drive_id) = false →
     req_method req = files_create →
     ∃ folder_metadata,
       req_kwargs req !! "body" = Some (VDict folder_metadata)
       ∧ folder_metadata !! "parents" = Some (VList [VStr "root"])).
Proof.
  intros Hi.
  destruct (find_or_create_folder_requests _ _ _ _ _ _ Hi) as [->| ->];
    cbn [req_method req_kwargs].
  - split; [|intros _ [=]].
    intros d -> Hd. split; [intros _|intros [=]].
    unfold search_params. rewrite Hd. cbn [of_optional].
    split; lookup_key.
  - split.
    + intros d -> Hd. split; [intros [=]|intros _].
      split; [unfold create_kwargs; lookup_key|].
      exists (folder_metadata folder_name (Some d)).
      split; [unfold create_kwargs; lookup_key|].
      unfold folder_metadata, parent_folder. rewrite Hd. cbn [of_optional].
      lookup_key.
    + intros Hd _. exists (folder_metadata folder_name drive_id).
      split; [unfold create_kwargs; lookup_key|].
      unfold folder_metadata, parent_folder. rewrite Hd. lookup_key.
Qed.

Lemma find_or_create_folder_drive_scope_shared :
  create_kwargs "Reports" (Some "0AAbcPVA") !! "supportsAllDrives" = Some (VBool true)
  ∧ ∃ folder_metadata,
      create_kwargs "Reports" (Some "0AAbcPVA") !! "body" = Some (VDict folder_metadata)
      ∧ folder_metadata !! "parents" = Some (VList [VStr "0AAbcPVA"]).
Proof.
  destruct (find_or_create_folder_drive_scope empty_drive "Reports" (Some "0AAbcPVA") true
              1%nat (Request files_create (create_kwargs "Reports" (Some "0AAbcPVA"))))
    as (Hscope & _); [reflexivity|].
  destruct (Hscope "0AAbcPVA") as (_ & Hcreate); [reflexivity | reflexivity |].
  apply Hcreate. reflexivity.
Defined.

(** ** Further properties of [find_or_create_folder] *)

(** X1: the function issues the list request alone, or the list request
    followed by the create request, and nothing else. *)
Theorem find_or_create_folder_trace
    (drive_service : service) (folder_name : string) (drive_id : option string)
    (include_items_from_all_drives : bool) :
  let resolve :=
    find_or_create_folder drive_service folder_name drive_id include_items_from_all_drives in
  let list_request :=
    Request files_list (search_params folder_name drive_id include_items_from_all_drives) in
  let create_request := Request files_create (create_kwargs folder_name drive_id) in
  calls resolve = [list_request] ∨ calls resolve = [list_request; create_request].
Proof.
  cbv zeta. rewrite find_or_create_folder_paths.
  destruct (execute drive_service (Request files_list _)) as [e|results]; [by left|].
  destruct (Py.get results "files" (VList [])) as [e|folders]; [by left|].
  destruct (truthy folders); [by left | by right].
Qed.

(** X2: a create request is issued exactly when the listing succeeds
    with a dictionary whose [files] entry, or the empty list in its
    absence, is falsy. *)
Theorem find_or_create_folder_creates_iff
    (drive_service : service) (folder_name : string) (drive_id : option string)
    (include_items_from_all_drives : bool) :
  let resolve :=
    find_or_create_folder drive_service folder_name drive_id include_items_from_all_drives in
  (count_calls files_create (calls resolve) = 1%nat
   ↔ ∃ results,
       execute drive_service
         (Request files_list
            (search_params folder_name drive_id include_items_from_all_drives))
       = inr (VDict results)
       ∧ truthy (from_option id (VList []) (results !! "files")) = false)
  ∧ (count_calls files_create (calls resolve) = 0%nat
     ∨ count_calls files_create (calls resolve) = 1%nat).
Proof.
  cbv zeta. rewrite find_or_create_folder_paths.
  destruct (execute drive_service (Request files_list _)) as [e|results].
  { split; [|by left]. split; [done | by intros (? & ? & _)]. }
  destruct results as [| | | | |d]; cbn [Py.get];
    try (split; [|by left]; split; [done | by intros (? & ? & _)]).
  destruct (truthy (from_option id (VList []) (d !! "files"))) eqn:Hfolders.
  - split; [|by left]. split; [done|].
    intros (d' & [= <-] & Hd'). congruence.
  - split; [|by right]. split; [|done]. intros _. by exists d.
Qed.

(** X3: a listing response that is not a dictionary gives [None] and no
    create request. *)
Theorem find_or_create_folder_malformed_listing
    (drive_service : service) (folder_name : string) (drive_id : option string)
    (include_items_from_all_drives : bool) (results : value) :
  execute drive_service
    (Request files_list (search_params folder_name drive_id include_items_from_all_drives))
  = inr results →
  (∀ d, results ≠ VDict d) →
  let resolve :=
    find_or_create_folder drive_service folder_name drive_id include_items_from_all_drives in
  outcome resolve = inr VNone
  ∧ count_calls files_create (calls resolve) = 0%nat.
Proof.
  intros Hlist Hshape. cbv zeta. rewrite find_or_create_folder_paths, Hlist.
  destruct results as [| | | | |d]; cbn [Py.get]; try done.
  by destruct (Hshape d).
Qed.

Lemma find_or_create_folder_malformed_listing_list :
  let resolve := find_or_create_folder malformed_drive "Reports" None true in
  outcome resolve = inr VNone
  ∧ count_calls files_create (calls resolve) = 0%nat.
Proof.
  apply (find_or_create_folder_malformed_listing malformed_drive "Reports" None true
           (VList [])); [reflexivity | discriminate].
Defined.

(** X4: when the first listed record has no readable id, the result is
    [None] and no folder is created, whatever the other records hold. *)
Theorem find_or_create_folder_first_without_id
    (drive_service : service) (folder_name : string) (drive_id : option string)
    (include_items_from_all_drives : bool) (results first : value)
    (others : list value) (e : exn) :
  execute drive_service
    (Request files_list (search_params folder_name drive_id include_items_from_all_drives))
  = inr results →
  Py.get results "files" (VList []) = inr (VList (first :: others)) →
  Py.getitem_str first "id" = inl e →
  let resolve :=
    find_or_create_folder drive_service folder_name drive_id include_items_from_all_drives in
  outcome resolve = inr VNone
  ∧ count_calls files_create (calls resolve) = 0%nat.
Proof.
  intros Hlist Hfolders Hid. cbv zeta.
  rewrite find_or_create_folder_paths, Hlist, Hfolders. cbn [truthy].
  rewrite getitem_int_head. cbn [mbind raising_bind]. by rewrite Hid.
Qed.

Lemma find_or_create_folder_first_without_id_bare :
  let resolve := find_or_create_folder drive_with_bare_record "Reports" None true in
  outcome resolve = inr VNone
  ∧ count_calls files_create (calls resolve) = 0%nat.
Proof.
  apply (find_or_create_folder_first_without_id drive_with_bare_record "Reports" None true
           (VDict {[ "files" := VList [ VDict {[ "name" := VStr "Reports" ]} ] ]})
           (VDict {[ "name" := VStr "Reports" ]}) [] KeyError); reflexivity.
Defined.

(** X5: a creation response without an [id] entry gives [None] although
    the create request was issued: a [None] result does not tell that
    nothing was created. *)
Theorem find_or_create_folder_created_without_id
    (drive_service : service) (folder_name : string) (drive_id : option string)
    (include_items_from_all_drives : bool) (results : value)
    (created_folder : gmap string value) :
  execute drive_service
    (Request files_list (search_params folder_name drive_id include_items_from_all_drives))
  = inr results →
  Py.get results "files" (VList []) = inr (VList []) →
  execute drive_service (Request files_create (create_kwargs folder_name drive_id))
  = inr (VDict created_folder) →
  created_folder !! "id" = None →
  let resolve :=
    find_or_create_folder drive_service folder_name drive_id include_items_from_all_drives in
  outcome resolve = inr VNone
  ∧ count_calls files_create (calls resolve) = 1%nat.
Proof.
  intros Hlist Hfolders Hcreate Hid. cbv zeta.
  rewrite find_or_create_folder_paths, Hlist, Hfolders. cbn [truthy].
  rewrite Hcreate. cbn [mbind raising_bind Py.get]. by rewrite Hid.
Qed.

Lemma find_or_create_folder_created_without_id_example :
  let resolve := find_or_create_folder drive_without_created_id "Reports" None true in
  outcome resolve = inr VNone
  ∧ count_calls files_create (calls resolve) = 1%nat.
Proof.
  apply (find_or_create_folder_created_without_id drive_without_created_id "Reports" None
           true (VDict ∅) {[ "name" := VStr "Reports" ]}); reflexivity.
Defined.

(** ** The shape of the requests *)

(** Two dictionaries built by item assignments on literal keys are equal
    when they agree key by key. *)
Ltac map_by_keys :=
  apply map_eq; intros ?;
  repeat (rewrite lookup_insert; case_decide; [reflexivity|]);
  try reflexivity.

(** X6: the search parameters are the common list parameters of
    [build_drive_list_params] for the folder query, a page of 10 and no
    corpora argument, with the [fields] entry alone replaced. *)
Theorem search_params_as_list_params
    (folder_name : string) (drive_id : option string)
    (include_items_from_all_drives : bool) :
  search_params folder_name drive_id include_items_from_all_drives
  = <["fields" := VStr "files(id, name, parents)"]>
      (build_drive_list_params (query folder_name) 10 drive_id
         include_items_from_all_drives None).
Proof.
  unfold search_params, build_drive_list_params. cbn [of_optional truthy].
  destruct (truthy (of_optional drive_id)); map_by_keys.
Qed.

(** X7: the keys of the search parameters are the five common ones,
    with [corpora] and [driveId] added exactly for a truthy drive id. *)
Theorem search_params_keys
    (folder_name : string) (drive_id : option string)
    (include_items_from_all_drives : bool) :
  dom (search_params folder_name drive_id include_items_from_all_drives)
  = ({[ "q"; "pageSize"; "fields"; "supportsAllDrives"; "includeItemsFromAllDrives" ]}
     ∪ (if truthy (of_optional drive_id) then {[ "corpora"; "driveId" ]} else ∅)
     : gset string).
Proof.
  unfold search_params.
  destruct (truthy (of_optional drive_id));
    rewrite !dom_insert_L, dom_empty_L; set_solver.
Qed.

(** X8: every create request asks for the fields [id, name] and has as
    body a dictionary of exactly three entries, [name], [mimeType] and
    [parents], whose [mimeType] is the folder type; it has no other
    keyword argument than [body], [fields] and [supportsAllDrives]. *)
Theorem find_or_create_folder_create_request
    (drive_service : service) (folder_name : string) (drive_id : option string)
    (include_items_from_all_drives : bool) (i : nat) (kwargs : gmap string value) :
  calls (find_or_create_folder drive_service folder_name drive_id
           include_items_from_all_drives) !! i
  = Some (Request files_create kwargs) →
  dom kwargs = ({[ "body"; "fields"; "supportsAllDrives" ]} : gset string)
  ∧ kwargs !! "fields" = Some (VStr "id, name")
  ∧ ∃ folder_metadata,
      kwargs !! "body" = Some (VDict folder_metadata)
      ∧ dom folder_metadata = ({[ "name"; "mimeType"; "parents" ]} : gset string)
      ∧ folder_metadata !! "mimeType" = Some (VStr "application/vnd.google-apps.folder").
Proof.
  intros Hi.
  destruct (find_or_create_folder_requests _ _ _ _ _ _ Hi) as [[=]|[= ->]].
  split; [|split].
  - unfold create_kwargs. rewrite !dom_insert_L, dom_empty_L. set_solver.
  - unfold create_kwargs. lookup_key.
  - exists (folder_metadata folder_name drive_id). split; [|split].
    + unfold create_kwargs. lookup_key.
    + unfold folder_metadata. rewrite !dom_insert_L, dom_empty_L. set_solver.
    + unfold folder_metadata. lookup_key.
Qed.

Lemma find_or_create_folder_create_request_example :
  dom (create_kwargs "Reports" None)
  = ({[ "body"; "fields"; "supportsAllDrives" ]} : gset string)
  ∧ create_kwargs "Reports" None !! "fields" = Some (VStr "id, name")
  ∧ ∃ folder_metadata,
      create_kwargs "Reports" None !! "body" = Some (VDict folder_metadata)
      ∧ dom folder_metadata = ({[ "name"; "mimeType"; "parents" ]} : gset string)
      ∧ folder_metadata !! "mimeType" = Some (VStr "application/vnd.google-apps.folder").
Proof.
  apply (find_or_create_folder_create_request empty_drive "Reports" None true 1%nat
           (create_kwargs "Reports" None)).
  reflexivity.
Defined.

(** ** The folder query *)

Lemma length_app (s t : string) :
  String.length (s +:+ t) = (String.length s + String.length t)%nat.
Proof. induction s as [|c s IH]; simpl; [reflexivity | by rewrite IH]. Qed.

Lemma app_cancel_r (s1 s2 t : string) : s1 +:+ t = s2 +:+ t → s1 = s2.
Proof.
  revert s2. induction s1 as [|c s1 IH]; intros [|c' s2] Heq.
  - reflexivity.
  - apply (f_equal String.length) in Heq. rewrite !length_app in Heq.
    cbn [String.length] in Heq. lia.
  - apply (f_equal String.length) in Heq. rewrite !length_app in Heq.
    cbn [String.length] in Heq. lia.
  - cbn in Heq. injection Heq as -> Heq. f_equal. by apply IH.
Qed.

(** Escaped text never begins with a bare quote. *)
Lemma escape_quotes_head (s t : string) : escape_quotes s ≠ String "'" t.
Proof.
  destruct s as [|c r]; [discriminate|].
  cbn [escape_quotes]. unfold escape_char.
  destruct (Ascii.eqb_spec c "'") as [->|Hc]; [discriminate|].
  cbn. intros [= -> _]. by apply Hc.
Qed.

Lemma escape_quotes_inj (s1 s2 : string) :
  escape_quotes s1 = escape_quotes s2 → s1 = s2.
Proof.
  revert s2. induction s1 as [|c1 r1 IH]; intros [|c2 r2]; cbn [escape_quotes].
  - reflexivity.
  - unfold escape_char. by destruct (Ascii.eqb c2 "'").
  - unfold escape_char. by destruct (Ascii.eqb c1 "'").
  - unfold escape_char.
    destruct (Ascii.eqb_spec c1 "'") as [->|H1], (Ascii.eqb_spec c2 "'") as [->|H2]; cbn.
    + intros [= Heq]. f_equal. by apply IH.
    + intros [= <- Heq]. symmetry in Heq. by apply escape_quotes_head in Heq.
    + intros [= -> Heq]. by apply escape_quotes_head in Heq.
    + intros [= -> Heq]. f_equal. by apply IH.
Qed.

(** X9: two different folder names never give the same query. *)
Theorem query_inj (folder_name1 folder_name2 : string) :
  query folder_name1 = query folder_name2 → folder_name1 = folder_name2.
Proof.
  unfold query, escaped_name. rewrite !replace_quote. intros Heq.
  apply (inj (String.app "name = '")) in Heq.
  apply app_cancel_r in Heq. by apply escape_quotes_inj.
Qed.

Lemma query_inj_example : "Reports" = "Reports".
Proof. apply (query_inj "Reports" "Reports"). reflexivity. Defined.

(** X10: in the escaped name every single quote comes right after a
    backslash. *)
Theorem escaped_name_quotes_follow_backslash (folder_name : string) (i : nat) :
  String.get i (escaped_name folder_name) = Some "'"%char →
  ∃ j, i = S j ∧ String.get j (escaped_name folder_name) = Some "\"%char.
Proof.
  unfold escaped_name. rewrite replace_quote. revert i.
  induction folder_name as [|c r IH]; intros i; [by destruct i|].
  cbn [escape_quotes]. unfold escape_char.
  destruct (Ascii.eqb_spec c "'") as [->|Hc]; cbn.
  - destruct i as [|[|i]]; [done | by exists 0%nat |].
    intros (j & -> & Hj)%IH. by exists (S (S j)).
  - destruct i as [|i]; [intros [= ->]; by destruct Hc|].
    intros (j & -> & Hj)%IH. by exists (S j).
Qed.

Lemma escaped_name_quotes_follow_backslash_example :
  ∃ j, 4%nat = S j ∧ String.get j (escaped_name "Bob's files") = Some "\"%char.
Proof.
  apply (escaped_name_quotes_follow_backslash "Bob's files" 4). reflexivity.
Defined.

(** X11: escaping lengthens the name by one character per single quote,
    and leaves exactly the names without a quote unchanged. *)
Theorem escaped_name_length (folder_name : string) :
  String.length (escaped_name folder_name)
  = (String.length folder_name + count_quotes folder_name)%nat
  ∧ (escaped_name folder_name = folder_name ↔ count_quotes folder_name = 0%nat).
Proof.
  unfold escaped_name. rewrite replace_quote.
  assert (Hlen : ∀ s, String.length (escape_quotes s)
                      = (String.length s + count_quotes s)%nat).
  { induction s as [|c r IH]; [reflexivity|].
    cbn [escape_quotes count_quotes]. unfold escape_char.
    destruct (Ascii.eqb c "'"); rewrite length_app, IH; cbn [String.length]; lia. }
  split; [apply Hlen|]. split.
  - intros Heq. specialize (Hlen folder_name). rewrite Heq in Hlen. lia.
  - induction folder_name as [|c r IH]; [reflexivity|].
    cbn [escape_quotes count_quotes]. unfold escape_char.
    destruct (Ascii.eqb c "'"); [discriminate|].
    cbn. intros Hr. f_equal. by apply IH.
Qed.

(** ** Further properties of [build_drive_list_params] *)

Lemma truthy_of_optional (o : option string) :
  truthy (of_optional o) = true ↔ ∃ s, o = Some s ∧ s ≠ "".
Proof.
  destruct o as [s|]; cbn.
  - destruct (String.eqb_spec s "") as [->|Hs]; cbn.
    + split; [done | by intros (? & [= <-] & ?)].
    + split; [by exists s | done].
  - split; [done | by intros (? & [=] & _)].
Qed.

(** X12: the list parameters have a [driveId] entry exactly for a drive
    id that is a non-empty string, and the entry is that string. *)
Theorem build_drive_list_params_drive_id
    (query : string) (page_size : Z) (drive_id : option string)
    (include_items_from_all_drives : bool) (corpora : option string) (v : value) :
  build_drive_list_params query page_size drive_id include_items_from_all_drives corpora
    !! "driveId" = Some v
  ↔ ∃ d, drive_id = Some d ∧ d ≠ "" ∧ v = VStr d.
Proof.
  unfold build_drive_list_params. cbv zeta.
  destruct (truthy (of_optional drive_id)) eqn:Hd.
  - apply truthy_of_optional in Hd as (d & -> & Hd). cbn [of_optional].
    destruct (truthy (of_optional corpora)); lookup_key.
    all: split; [intros [= <-]; by exists d | by intros (? & [= <-] & _ & ->)].
  - assert (Hno : ¬ ∃ d, drive_id = Some d ∧ d ≠ "").
    { rewrite <- truthy_of_optional. congruence. }
    destruct (truthy (of_optional corpora)); lookup_key.
    all: split; [done | intros (d & ? & ? & _); destruct Hno; by exists d].
Qed.

(** X13: the [corpora] entry is the corpora argument when that is a
    non-empty string; otherwise it is ['drive'] for a non-empty drive
    id; otherwise there is none. *)
Theorem build_drive_list_params_corpora
    (query : string) (page_size : Z) (drive_id : option string)
    (include_items_from_all_drives : bool) (corpora : option string) :
  build_drive_list_params query page_size drive_id include_items_from_all_drives corpora
    !! "corpora"
  = match corpora, drive_id with
    | Some (String c r), _ => Some (VStr (String c r))
    | _, Some (String _ _) => Some (VStr "drive")
    | _, _ => None
    end.
Proof.
  unfold build_drive_list_params. cbv zeta.
  destruct drive_id as [[|? ?]|], corpora as [[|? ?]|];
    cbn [of_optional truthy String.eqb negb]; lookup_key.
Qed.

(** X14: the keys of the list parameters are the five common ones,
    [driveId] for a truthy drive id, and [corpora] when the drive id or
    the corpora argument is truthy. *)
Theorem build_drive_list_params_keys
    (query : string) (page_size : Z) (drive_id : option string)
    (include_items_from_all_drives : bool) (corpora : option string) :
  dom (build_drive_list_params query page_size drive_id
         include_items_from_all_drives corpora)
  = ({[ "q"; "pageSize"; "fields"; "supportsAllDrives"; "includeItemsFromAllDrives" ]}
     ∪ (if truthy (of_optional drive_id) then {[ "driveId" ]} else ∅)
     ∪ (if truthy (of_optional drive_id) || truthy (of_optional corpora)
        then {[ "corpora" ]} else ∅)
     : gset string).
Proof.
  unfold build_drive_list_params. cbv zeta.
  destruct (truthy (of_optional drive_id)), (truthy (of_optional corpora));
    cbn [orb]; rewrite !dom_insert_L, dom_empty_L; set_solver.
Qed.

(** ** Further properties of the sharing helpers *)

(** X15: a concatenation of permission lists is public exactly when one
    of the two lists is. *)
Theorem check_public_link_permission_app
    (permissions1 permissions2 : list (gmap string value)) :
  check_public_link_permission (permissions1 ++ permissions2)
  = check_public_link_permission permissions1
    || check_public_link_permission permissions2.
Proof. unfold check_public_link_permission. apply existsb_app. Qed.

(** X16: the order of the permission records does not matter. *)
Theorem check_public_link_permission_permutation
    (permissions1 permissions2 : list (gmap string value)) :
  permissions1 ≡ₚ permissions2 →
  check_public_link_permission permissions1
  = check_public_link_permission permissions2.
Proof.
  unfold check_public_link_permission.
  induction 1 as [|p l1 l2 _ IH|p q l|l1 l2 l3 _ IH1 _ IH2]; cbn [existsb].
  - reflexivity.
  - by rewrite IH.
  - rewrite !orb_assoc. f_equal. apply orb_comm.
  - by rewrite IH1.
Qed.

Lemma check_public_link_permission_permutation_example :
  check_public_link_permission
    [ {[ "type" := VStr "user" ]};
      <["role" := VStr "reader"]> {[ "type" := VStr "anyone" ]} ]
  = check_public_link_permission
      [ <["role" := VStr "reader"]> {[ "type" := VStr "anyone" ]};
        {[ "type" := VStr "user" ]} ].
Proof.
  apply check_public_link_permission_permutation. apply Permutation_swap.
Defined.

(** X17: different file ids give different image addresses. *)
Theorem get_drive_image_url_inj (file_id1 file_id2 : string) :
  get_drive_image_url file_id1 = get_drive_image_url file_id2 →
  file_id1 = file_id2.
Proof. unfold get_drive_image_url. apply (inj (String.app _)). Qed.

Lemma get_drive_image_url_inj_example : "XYZ" = "XYZ".
Proof. apply (get_drive_image_url_inj "XYZ" "XYZ"). reflexivity. Defined.

(** X18: for one file name, different file ids give different error
    messages. *)
Theorem format_public_sharing_error_inj (file_name file_id1 file_id2 : string) :
  format_public_sharing_error file_name file_id1
  = format_public_sharing_error file_name file_id2 →
  file_id1 = file_id2.
Proof.
  unfold format_public_sharing_error. intros Heq.
  apply (inj (String.app _)) in Heq.
  apply (inj (String.app _)) in Heq.
  apply (inj (String.app _)) in Heq.
  by apply app_cancel_r in Heq.
Qed.

Lemma format_public_sharing_error_inj_example : "1AbC" = "1AbC".
Proof.
  apply (format_public_sharing_error_inj "report.png" "1AbC" "1AbC"). reflexivity.
Defined.

(** ** Escaping and concatenation *)

Lemma app_assoc_string (s t u : string) : (s +:+ t) +:+ u = s +:+ t +:+ u.
Proof.
  induction s as [|c s IH]; [reflexivity|].
  change (String c ((s +:+ t) +:+ u) = String c (s +:+ t +:+ u)).
  by rewrite IH.
Qed.

Lemma escape_quotes_app (s t : string) :
  escape_quotes (s +:+ t) = escape_quotes s +:+ escape_quotes t.
Proof.
  induction s as [|c s IH]; [reflexivity|].
  change (String c s +:+ t) with (String c (s +:+ t)).
  cbn [escape_quotes]. by rewrite IH, app_assoc_string.
Qed.

(** X19: escaping a concatenation of two names is concatenating their
    escapings. *)
Theorem escaped_name_app (folder_name1 folder_name2 : string) :
  escaped_name (folder_name1 +:+ folder_name2)
  = escaped_name folder_name1 +:+ escaped_name folder_name2.
Proof. unfold escaped_name. rewrite !replace_quote. apply escape_quotes_app. Qed.

(** X20: a backslash at the end of the name is left alone, so in the
    query it stands right before the quote that closes the name. *)
Theorem query_trailing_backslash (folder_name : string) :
  query (folder_name +:+ "\")
  = "name = '" +:+ escaped_name folder_name
    +:+ "\' and mimeType = 'application/vnd.google-apps.folder' and trashed = false".
Proof.
  unfold query. rewrite escaped_name_app.
  change (escaped_name "\") with "\".
  by rewrite app_assoc_string.
Qed.
